(** * Emergency Safety Helper: a shallow embedding of the frontend
      (frontend/src/App.js, both revisions, and frontend/src/ga4.js) and of
      the hazard-resolution pipeline of the backend. *)

From Stdlib Require Import String Ascii List ZArith NArith Bool Lia.
Import ListNotations.
Open Scope string_scope.

(* ------------------------------------------------------------------ *)
(** ** JavaScript values and string helpers *)

(** The JS values that reach the modelled code.  Numbers are integral here
    (HTTP status codes); NaN and fractional numbers do not occur. *)
Inductive jsval :=
| JUndefined
| JNull
| JBool (b : bool)
| JNum (z : Z)
| JStr (s : string).

(** JS truthiness. *)
Definition truthy (v : jsval) : bool :=
  match v with
  | JUndefined | JNull => false
  | JBool b => b
  | JNum z => negb (Z.eqb z 0)
  | JStr s => negb (String.eqb s "")
  end.

(** [a || b] returns [a] itself when it is truthy, else [b]. *)
Definition js_or (a b : jsval) : jsval := if truthy a then a else b.

(** The white space removed by [String.prototype.trim], restricted to the
    ASCII characters a Rocq [string] holds: TAB, LF, VT, FF, CR, SPACE. *)
Definition is_js_space (c : ascii) : bool :=
  match nat_of_ascii c with
  | 9 | 10 | 11 | 12 | 13 | 32 => true
  | _ => false
  end.

Fixpoint trim_start (s : string) : string :=
  match s with
  | EmptyString => EmptyString
  | String c r => if is_js_space c then trim_start r else s
  end.

Fixpoint trim_end (s : string) : string :=
  match s with
  | EmptyString => EmptyString
  | String c r =>
      let r' := trim_end r in
      if is_js_space c && String.eqb r' "" then EmptyString else String c r'
  end.

(** [s.trim()] *)
Definition trim (s : string) : string := trim_end (trim_start s).

(** Decimal rendering of a non-negative integer, as in a template literal. *)
Fixpoint N_digits (fuel : nat) (n : N) (acc : string) : string :=
  match fuel with
  | O => acc
  | S f =>
      let acc' := String (ascii_of_N (48 + N.modulo n 10)) acc in
      if N.ltb n 10 then acc' else N_digits f (N.div n 10) acc'
  end.

Definition Z_to_string (z : Z) : string :=
  let d := N_digits (S (N.size_nat (Z.abs_N z))) (Z.abs_N z) "" in
  if Z.ltb z 0 then "-" ++ d else d.

(* ------------------------------------------------------------------ *)
(** ** ga4.js *)

(** The argument object of [trackEvent({ action, category, label, value })]. *)
Record track_args := {
  action : jsval;
  category : jsval;
  label : jsval;
  value : jsval
}.

(** [window.gtag]: falsy, or the gtag function installed by the GA snippet. *)
Inductive gtag_slot := GtagFalsy | GtagFunction.

(** [None]: [typeof window === "undefined"]. *)
Definition window_env := option gtag_slot.

(** One call [window.gtag(command, name, params)]. *)
Record gtag_call := {
  g_command : string;
  g_name : jsval;
  g_params : list (string * jsval)
}.

Definition trackEvent (w : window_env) (a : track_args) : list gtag_call :=
  match w with
  | None => []
  | Some GtagFalsy => []
  | Some GtagFunction =>
      [ {| g_command := "event"; g_name := action a;
           g_params := [("event_category", category a);
                        ("event_label", label a);
                        ("value", value a)] |} ]
  end.

Definition trackPageView (w : window_env) (path : jsval) : list gtag_call :=
  match w with
  | None => []
  | Some GtagFalsy => []
  | Some GtagFunction =>
      [ {| g_command := "event"; g_name := JStr "page_view";
           g_params := [("page_path", path)] |} ]
  end.

(** The helpers called from arbitrary JS.  The argument of [trackEvent]:
    [undefined] (also a call with no argument), [null], or a value whose
    properties are read by the destructuring (a primitive other than
    [undefined] and [null] is boxed and reads as all-undefined fields). *)
Inductive js_arg :=
| ArgUndefined
| ArgNull
| ArgObject (a : track_args).

(** [window.gtag] as any JS value: falsy, a function, or truthy but not
    callable. *)
Inductive gtag_value := GFalsy | GFunction | GNonFunction.

(** [None]: [typeof window === "undefined"]. *)
Definition raw_window := option gtag_value.

(** Normal completion with a result, or a thrown TypeError. *)
Inductive js_outcome (A : Type) :=
| Returns (x : A)
| Throws (msg : string).
Arguments Returns {A} x.
Arguments Throws {A} msg.

(** [trackEvent] applied to an arbitrary argument: the parameter
    destructuring [{ action, category, label, value }] runs before the body,
    so a nullish argument throws before the window guard; the call
    [window.gtag(...)] throws when gtag is truthy but not a function. *)
Definition trackEvent_js (w : raw_window) (arg : js_arg) : js_outcome (list gtag_call) :=
  match arg with
  | ArgUndefined =>
      Throws "Cannot destructure property 'action' of 'undefined' as it is undefined."
  | ArgNull =>
      Throws "Cannot destructure property 'action' of 'null' as it is null."
  | ArgObject a =>
      match w with
      | None => Returns (trackEvent None a)
      | Some GFalsy => Returns (trackEvent (Some GtagFalsy) a)
      | Some GFunction => Returns (trackEvent (Some GtagFunction) a)
      | Some GNonFunction => Throws "window.gtag is not a function"
      end
  end.

(** [trackPageView] on any path value. *)
Definition trackPageView_js (w : raw_window) (path : jsval) : js_outcome (list gtag_call) :=
  match w with
  | None => Returns (trackPageView None path)
  | Some GFalsy => Returns (trackPageView (Some GtagFalsy) path)
  | Some GFunction => Returns (trackPageView (Some GtagFunction) path)
  | Some GNonFunction => Throws "window.gtag is not a function"
  end.

(* ------------------------------------------------------------------ *)
(** ** App.js *)

(** The fields of the API response that the component reads:
    [data.hazard], [result.guidesUsed] (an array of guide keys, [None] when
    absent or not an array) and [result.mode]. *)
Record resp_data := {
  hazard : jsval;
  guidesUsed : option (list string);
  rmode : jsval
}.

(** The component state: [situationText], [mode], [loading], [result],
    [error]. *)
Record ui := {
  situationText : string;
  mode : string;
  loading : bool;
  result : option resp_data;
  error : string
}.

Definition set_text (s : string) (st : ui) : ui :=
  {| situationText := s; mode := mode st; loading := loading st;
     result := result st; error := error st |}.
Definition set_mode (m : string) (st : ui) : ui :=
  {| situationText := situationText st; mode := m; loading := loading st;
     result := result st; error := error st |}.
Definition set_loading (b : bool) (st : ui) : ui :=
  {| situationText := situationText st; mode := mode st; loading := b;
     result := result st; error := error st |}.
Definition set_result (r : option resp_data) (st : ui) : ui :=
  {| situationText := situationText st; mode := mode st; loading := loading st;
     result := r; error := error st |}.
Definition set_error (e : string) (st : ui) : ui :=
  {| situationText := situationText st; mode := mode st; loading := loading st;
     result := result st; error := e |}.

(** [useState('')], [useState('normal')], [useState(false)],
    [useState(null)], [useState('')]. *)
Definition init_ui : ui :=
  {| situationText := ""; mode := "normal"; loading := false;
     result := None; error := "" |}.

(** A [fetch(url, { method, headers, body })] request; the body
    [JSON.stringify({ situationText: trimmed })] is kept as its object. *)
Record request := {
  req_url : string;
  req_method : string;
  req_headers : list (string * string);
  req_body : list (string * string)
}.

(** Observable effects of the handlers, in program order. *)
Inductive effect :=
| ETrack (a : track_args)         (* trackEvent(...) *)
| EPageView (path : jsval)        (* trackPageView(...) *)
| EFetch (r : request)            (* fetch(...) *)
| EOpen (url : string).           (* window.open(...) *)

(** What the network does with the request: [fetch] rejects with an error
    message, or resolves with a status and a body whose [res.json()]
    rejects, yields [null], or yields an object. *)
Inductive json_outcome :=
| JsonError (msg : string)
| JsonNull
| JsonObject (d : resp_data).

Inductive fetch_outcome :=
| FetchReject (msg : string)
| FetchResolve (status : Z) (body : json_outcome).

(** [res.ok] *)
Definition res_ok (status : Z) : bool := (200 <=? status)%Z && (status <=? 299)%Z.

(** The TypeError message of [data.hazard] when [data] is [null] (V8). *)
Definition null_read_msg : string :=
  "Cannot read properties of null (reading 'hazard')".

Definition mk_event (a c : string) (l : jsval) : track_args :=
  {| action := JStr a; category := JStr c; label := l; value := JUndefined |}.

(** The [catch (err)] block: [err?.message || 'unknown_error']. *)
Definition on_error (st : ui) (msg : string) : ui * list effect :=
  (set_error "Something went wrong. Please try again." st,
   [ETrack (mk_event "help_request_error" "help"
             (js_or (JStr msg) (JStr "unknown_error")))]).

(** The [try] block after [fetch] has been issued. *)
Definition after_fetch (st : ui) (o : fetch_outcome) : ui * list effect :=
  match o with
  | FetchReject msg => on_error st msg
  | FetchResolve status body =>
      if negb (res_ok status) then on_error st ("API error: " ++ Z_to_string status)
      else
        match body with
        | JsonError msg => on_error st msg
        | JsonNull => on_error (set_result None st) null_read_msg
        | JsonObject d =>
            (set_result (Some d) st,
             [ETrack (mk_event "help_request_success" "help"
                        (js_or (hazard d) (JStr "unknown")))])
        end
  end.

(** [handleSubmit], common to both revisions up to [API_BASE] (the
    [console.log] of the second revision is not an observable effect here).
    The [await]s are run to completion: no other UI event interleaves. *)
Definition handleSubmit (api_base : string) (st : ui) (o : fetch_outcome)
  : ui * list effect :=
  let st0 := set_result None (set_error "" st) in
  let trimmed := trim (situationText st) in
  if String.eqb trimmed "" then
    (set_error "Please describe your situation." st0, [])
  else
    let st1 := set_loading true st0 in
    let endpoint := if String.eqb (mode st) "deep" then "/api/help/deep" else "/api/help" in
    let url := api_base ++ endpoint in
    let submit := ETrack (mk_event "submit_help_request" "help" (JStr (mode st))) in
    let req := EFetch {| req_url := url; req_method := "POST";
                         req_headers := [("Content-Type", "application/json")];
                         req_body := [("situationText", trimmed)] |} in
    let '(st2, effs) := after_fetch st1 o in
    (set_loading false st2, submit :: req :: effs).

Inductive revision := Rev1 | Rev2.

(** [handleReset]; the second revision also calls [setMode('normal')]. *)
Definition handleReset (rev : revision) (st : ui) : ui * list effect :=
  let st1 := set_error "" (set_result None (set_text "" st)) in
  let st2 := match rev with Rev1 => st1 | Rev2 => set_mode "normal" st1 end in
  (st2, [ETrack (mk_event "help_form_reset" "help" (JStr "reset"))]).

Definition KO_FI_URL : string := "https://ko-fi.com/nikharbhavsar".

(** [handleDonateClick] (second revision only). *)
Definition handleDonateClick (st : ui) : ui * list effect :=
  (st, [ETrack (mk_event "click_donate" "support" (JStr "kofi_button"));
        EOpen KO_FI_URL]).

(** [API_BASE] of the first revision. *)
Definition API_BASE_v1 : string := "http://127.0.0.1:5000".

(** [.replace(/\/$/, '')]: the regex has no [g] or [m] flag, so at most the
    one '/' at the very end of the string is removed. *)
Fixpoint strip_trailing_slash (s : string) : string :=
  match s with
  | EmptyString => EmptyString
  | String c EmptyString => if Ascii.eqb c "/"%char then EmptyString else s
  | String c r => String c (strip_trailing_slash r)
  end.

(** [API_BASE] of the second revision, from [process.env.REACT_APP_API_URL]
    ([None] when the variable is unset). *)
Definition API_BASE_v2 (env : option string) : string :=
  let configured := match env with Some s => JStr s | None => JUndefined end in
  let base := match js_or configured (JStr "http://127.0.0.1:5000") with
              | JStr s => s
              | _ => "http://127.0.0.1:5000"
              end in
  strip_trailing_slash base.

Definition API_BASE (rev : revision) (env : option string) : string :=
  match rev with Rev1 => API_BASE_v1 | Rev2 => API_BASE_v2 env end.

(** The user's interactions with the rendered component. *)
Inductive ui_event :=
| UType (s : string)              (* textarea onChange *)
| UToggle (checked : bool)        (* checkbox onChange, disabled while loading *)
| USubmit (o : fetch_outcome)     (* primary button, disabled while loading *)
| UReset                          (* disabled when loading && !result *)
| UDonate.                        (* Ko-fi button, second revision only *)

Definition step (rev : revision) (env : option string) (st : ui) (e : ui_event)
  : ui * list effect :=
  match e with
  | UType s => (set_text s st, [])
  | UToggle b =>
      if loading st then (st, [])
      else (set_mode (if b then "deep" else "normal") st, [])
  | USubmit o =>
      if loading st then (st, []) else handleSubmit (API_BASE rev env) st o
  | UReset =>
      if loading st && match result st with None => true | Some _ => false end
      then (st, []) else handleReset rev st
  | UDonate =>
      match rev with
      | Rev1 => (st, [])
      | Rev2 => handleDonateClick st
      end
  end.

Fixpoint run (rev : revision) (env : option string) (st : ui) (es : list ui_event)
  : ui * list effect :=
  match es with
  | [] => (st, [])
  | e :: es' =>
      let '(st1, effs1) := step rev env st e in
      let '(st2, effs2) := run rev env st1 es' in
      (st2, (effs1 ++ effs2)%list)
  end.

(** Mounting ([useEffect(() => trackPageView('/'), [])]) then the events. *)
Definition app_run (rev : revision) (env : option string) (es : list ui_event)
  : ui * list effect :=
  let '(st, effs) := run rev env init_ui es in
  (st, EPageView (JStr "/") :: effs).

(** The Guides pill of the result panel: [Some text] when rendered.
    First revision: [result.guidesUsed?.length > 0];
    second revision: [result.guidesUsed?.length > 0 && mode === 'deep']. *)
Definition guides_pill (rev : revision) (st : ui) : option string :=
  match result st with
  | None => None
  | Some d =>
      match guidesUsed d with
      | Some ((_ :: _) as gs) =>
          let shown := match rev with
                       | Rev1 => true
                       | Rev2 => String.eqb (mode st) "deep"
                       end in
          if shown then Some ("Guides: " ++ String.concat ", " gs) else None
      | _ => None
      end
  end.

(* ------------------------------------------------------------------ *)
(** ** The hazard-resolution pipeline of the backend *)

(** Modelled from the spec: backend/app.py and backend/gemini_client.py are
    not part of the sources at hand; this module follows the spec's
    Medical Short-Circuit (4.1), Rule Classifier (4.2), AI Classifier (4.3),
    Guide Resolver (4.4), Guidance Synthesizer (4.5), Pipeline Orchestrator
    (4.6) and the HTTP surface of /api/help and /api/help/deep (6).  The
    rule table, the medical keyword list and the guide catalog are
    configuration data, so they are parameters ([Catalog]); the external
    services are parameters too ([External]), and every call to them is
    recorded. *)
Module Backend.

(** Case folding for case-insensitive matching. *)
Definition lower_ascii (c : ascii) : ascii :=
  let n := nat_of_ascii c in
  if Nat.leb 65 n && Nat.leb n 90 then ascii_of_nat (n + 32) else c.

Fixpoint lower (s : string) : string :=
  match s with
  | EmptyString => EmptyString
  | String c r => String (lower_ascii c) (lower r)
  end.

Fixpoint prefixb (p s : string) : bool :=
  match p, s with
  | EmptyString, _ => true
  | String _ _, EmptyString => false
  | String a p', String b s' => Ascii.eqb a b && prefixb p' s'
  end.

(** [contains p s]: [p] is a substring of [s]. *)
Fixpoint contains (p s : string) : bool :=
  match s with
  | EmptyString => prefixb p EmptyString
  | String _ r => prefixb p s || contains p r
  end.

(** Case-insensitive keyword match. *)
Definition matches_pattern (text pat : string) : bool :=
  contains (lower pat) (lower text).

Fixpoint assoc {A} (k : string) (l : list (string * A)) : option A :=
  match l with
  | [] => None
  | (k', v) :: l' => if String.eqb k k' then Some v else assoc k l'
  end.

Definition MEDICAL_EMERGENCY : string := "medical_emergency".
Definition UNKNOWN_GENERAL : string := "unknown_general".

(** A GuideEntry of the Guide Catalog. *)
Record GuideEntry := {
  guideKey : string;
  entry_hazard : string;
  externalFileHandle : option string;
  handleExpiry : option Z
}.

(** A snapshot of the Guide Catalog together with the rule configuration. *)
Record Catalog := {
  medical_keywords : list string;
  rules : list (string * list string);      (* ordered {hazard, patterns} *)
  taxonomy : list string;                   (* the closed hazard set *)
  guide_map : list (string * list string);  (* hazard -> ordered guide keys *)
  entries : list GuideEntry
}.

Inductive source := Rules | AI.
Inductive req_mode := Normal | Deep.

Record GuidanceResult := {
  hazard : string;
  hazardSource : source;
  guidesUsed : list string;
  canDeepDive : bool;
  guidance : string;
  mode : req_mode
}.

Inductive response :=
| Ok (r : GuidanceResult)
| BadRequest (msg : string).

(** What the external classification capability answers: a label (possibly
    empty or outside the taxonomy), a malformed reply, a timeout or a
    transport failure. *)
Inductive ai_reply :=
| AILabel (s : string)
| AIMalformed
| AITimeout
| AITransportError.

(** The external services; [None] is a failed or timed-out call. *)
Record External := {
  ai_classify : string -> list string -> ai_reply;
  reason_short : string -> string -> option string;
  reason_doc : string -> string -> list string -> option string
}.

(** The external calls a request issues. *)
Inductive ext_call :=
| CallClassify (text : string)
| CallShort (text hz : string)
| CallDoc (text hz : string) (handles : list string).

(** A writer monad recording the external calls. *)
Definition M (A : Type) : Type := (A * list ext_call)%type.
Definition ret {A} (a : A) : M A := (a, []).
Definition bind {A B} (m : M A) (k : A -> M B) : M B :=
  let '(a, l1) := m in let '(b, l2) := k a in (b, (l1 ++ l2)%list).
Definition call {A} (c : ext_call) (reply : A) : M A := (reply, [c]).
Notation "x <- m ;; k" := (bind m (fun x => k))
  (at level 61, m at next level, right associativity).

Section Pipeline.
Variable ext : External.
Variable cat : Catalog.
(** The time at which handle expiries are compared. *)
Variable now : Z.

(** 4.1: any medical keyword, case-insensitively. *)
Definition medical_match (text : string) : bool :=
  existsb (matches_pattern text) (medical_keywords cat).

(** 4.2: the first rule one of whose patterns matches. *)
Fixpoint first_rule (rs : list (string * list string)) (text : string) : option string :=
  match rs with
  | [] => None
  | (h, pats) :: rs' =>
      if existsb (matches_pattern text) pats then Some h else first_rule rs' text
  end.

Definition classify_rules (text : string) : option string :=
  first_rule (rules cat) text.

(** The labels the AI Classifier may return: the taxonomy without
    [medical_emergency], which only the short-circuit produces. *)
Definition ai_taxonomy : list string :=
  filter (fun h => negb (String.eqb h MEDICAL_EMERGENCY)) (taxonomy cat).

Definition validate_label (r : ai_reply) : string :=
  match r with
  | AILabel s =>
      if negb (String.eqb s "") && existsb (String.eqb s) ai_taxonomy
      then s else UNKNOWN_GENERAL
  | _ => UNKNOWN_GENERAL
  end.

(** 4.3 *)
Definition classify_ai (text : string) : M string :=
  r <- call (CallClassify text) (ai_classify ext text ai_taxonomy) ;;
  ret (validate_label r).

Definition classify (text : string) : M (string * source) :=
  match classify_rules text with
  | Some h => ret (h, Rules)
  | None => h <- classify_ai text ;; ret (h, AI)
  end.

(** 4.4 *)
Definition resolve_guides (h : string) : list string :=
  match assoc h (guide_map cat) with Some gs => gs | None => [] end.

Definition find_entry (key : string) : option GuideEntry :=
  find (fun e => String.eqb (guideKey e) key) (entries cat).

(** A handle is usable when present and not expired (an entry without an
    expiry is taken as unexpired). *)
Definition usable_handle (e : GuideEntry) : option string :=
  match externalFileHandle e with
  | None => None
  | Some fh =>
      match handleExpiry e with
      | Some exp => if Z.ltb now exp then Some fh else None
      | None => Some fh
      end
  end.

Definition usable_handles (gs : list string) : list string :=
  flat_map (fun k => match find_entry k with
                     | Some e => match usable_handle e with Some fh => [fh] | None => [] end
                     | None => []
                     end) gs.

(** The hand-authored generic safety steps, the floor of every fallback. *)
Definition GENERIC_STEPS : string :=
  "1. Stay calm and move away from immediate danger. 2. If anyone is at risk, call emergency services (911 or your local emergency number). 3. Follow instructions from local authorities.".

Definition MEDICAL_GUIDANCE : string :=
  "This may be a medical emergency. Call emergency services (911 or your local emergency number) right now.".

(** 4.5, short-form: never fails; an empty or failed reply gives
    [GENERIC_STEPS]. *)
Definition short_form (text h : string) : M string :=
  r <- call (CallShort text h) (reason_short ext text h) ;;
  ret (match r with
       | Some g => if String.eqb g "" then GENERIC_STEPS else g
       | None => GENERIC_STEPS
       end).

(** 4.5, document-informed with the fallbacks (b) and (c). *)
Definition doc_informed (text h : string) (gs : list string) : M string :=
  match usable_handles gs with
  | [] => short_form text h
  | hs =>
      r <- call (CallDoc text h hs) (reason_doc ext text h hs) ;;
      match r with
      | Some g => if String.eqb g "" then short_form text h else ret g
      | None => short_form text h
      end
  end.

(** 4.5 strategy choice, with fallback (a). *)
Definition synthesize (m : req_mode) (text h : string) (gs : list string) : M string :=
  match m, gs with
  | Normal, _ => short_form text h
  | Deep, [] => short_form text h
  | Deep, _ => doc_informed text h gs
  end.

Definition medical_response (m : req_mode) : GuidanceResult :=
  {| hazard := MEDICAL_EMERGENCY; hazardSource := Rules; guidesUsed := [];
     canDeepDive := false; guidance := MEDICAL_GUIDANCE; mode := m |}.

(** 4.6: short-circuit, classify, resolve, synthesize. *)
Definition process (m : req_mode) (text : string) : M GuidanceResult :=
  if medical_match text then ret (medical_response m)
  else
    hs <- classify text ;;
    let '(h, src) := hs in
    let gs := resolve_guides h in
    g <- synthesize m text h gs ;;
    ret {| hazard := h; hazardSource := src; guidesUsed := gs;
           canDeepDive := match gs with [] => false | _ => true end;
           guidance := g; mode := m |}.

(** POST /api/help with body field [situationText] ([None]: missing). *)
Definition handle_help (body : option string) : M response :=
  match body with
  | None => ret (BadRequest "situationText is required")
  | Some t =>
      if String.eqb t "" then ret (BadRequest "situationText is required")
      else r <- process Normal t ;; ret (Ok r)
  end.

(** POST /api/help/deep: 400 only when [situationText] is missing. *)
Definition handle_deep (body : option string) : M response :=
  match body with
  | None => ret (BadRequest "situationText is required")
  | Some t => r <- process Deep t ;; ret (Ok r)
  end.

End Pipeline.

(** A concrete configuration, after the guides listed in the project
    README, used to run the pipeline on examples. *)
Definition demo_catalog : Catalog :=
  {| medical_keywords := ["unconscious"; "not breathing"; "severe bleeding";
                          "chest pain"; "choking"; "heart attack"; "stroke"];
     rules := [("flood", ["flood"; "water is rising"]);
               ("gas_leak", ["smell gas"; "gas leak"]);
               ("wildfire", ["wildfire"; "smoke"]);
               ("vehicle_breakdown", ["car broke down"; "breakdown"])];
     taxonomy := ["flood"; "wildfire"; "gas_leak"; "vehicle_breakdown";
                  "earthquake"; MEDICAL_EMERGENCY; UNKNOWN_GENERAL];
     guide_map := [("flood", ["flood_preparedness"; "fema_are_you_ready"]);
                   ("wildfire", ["wildfire_preparedness"; "wildfire_toolkit"])];
     entries := [{| guideKey := "flood_preparedness"; entry_hazard := "flood";
                    externalFileHandle := Some "files/flood1"; handleExpiry := Some 100%Z |};
                 {| guideKey := "fema_are_you_ready"; entry_hazard := "flood";
                    externalFileHandle := None; handleExpiry := None |};
                 {| guideKey := "wildfire_preparedness"; entry_hazard := "wildfire";
                    externalFileHandle := Some "files/wf1"; handleExpiry := Some 10%Z |}] |}.

(** External services that answer everything with a fixed text, and
    that classify as an out-of-taxonomy label. *)
Definition demo_external : External :=
  {| ai_classify := fun _ _ => AILabel "volcano";
     reason_short := fun _ _ => Some "Stay calm.";
     reason_doc := fun _ _ _ => Some "Follow the guide." |}.

End Backend.

(* ------------------------------------------------------------------ *)
(** ** Frontend: auxiliary definitions for the statements *)

(** The requests issued, in order. *)
Definition fetches (effs : list effect) : list request :=
  flat_map (fun e => match e with EFetch r => [r] | _ => [] end) effs.

(** [trimmed] is blank: the guard [!trimmed]. *)
Definition is_blank (s : string) : bool := String.eqb (trim s) "".

(** Effects with request bodies erased: what leaves the page anywhere but in
    the body of a fetch. *)
Definition erase_body (e : effect) : effect :=
  match e with
  | EFetch r => EFetch {| req_url := req_url r; req_method := req_method r;
                          req_headers := req_headers r; req_body := [] |}
  | _ => e
  end.

(** Two event sequences that differ at most in the text typed, where each
    pair of typed texts agrees on being blank. *)
Definition ev_rel (e e' : ui_event) : Prop :=
  match e, e' with
  | UType s, UType s' => is_blank s = is_blank s'
  | _, _ => e = e'
  end.

(** Two states that differ at most in [situationText], both blank or both
    not. *)
Definition ui_rel (st st' : ui) : Prop :=
  is_blank (situationText st) = is_blank (situationText st') /\
  mode st = mode st' /\ loading st = loading st' /\
  result st = result st' /\ error st = error st'.

(** The labels the network outcome can contribute: the response's hazard
    ([data.hazard || 'unknown']) and error messages
    ([err?.message || 'unknown_error']). *)
Definition outcome_labels (o : fetch_outcome) : list jsval :=
  match o with
  | FetchReject m => [js_or (JStr m) (JStr "unknown_error")]
  | FetchResolve s b =>
      js_or (JStr ("API error: " ++ Z_to_string s)) (JStr "unknown_error") ::
      match b with
      | JsonError m => [js_or (JStr m) (JStr "unknown_error")]
      | JsonNull => [js_or (JStr null_read_msg) (JStr "unknown_error")]
      | JsonObject d => [js_or (hazard d) (JStr "unknown")]
      end
  end.

Definition event_labels (e : ui_event) : list jsval :=
  match e with USubmit o => outcome_labels o | _ => [] end.

Definition fixed_actions : list jsval :=
  map JStr ["submit_help_request"; "help_request_success"; "help_request_error";
            "help_form_reset"; "click_donate"].
Definition fixed_categories : list jsval := map JStr ["help"; "support"].
(** The fixed labels and the two values [mode] takes. *)
Definition fixed_labels : list jsval :=
  map JStr ["normal"; "deep"; "reset"; "kofi_button"].

Definition track_ok (L : list jsval) (a : track_args) : Prop :=
  In (action a) fixed_actions /\ In (category a) fixed_categories /\
  (In (label a) fixed_labels \/ In (label a) L) /\ value a = JUndefined.

Definition mode_ok (st : ui) : Prop := mode st = "normal" \/ mode st = "deep".

(* ------------------------------------------------------------------ *)
(** ** Frontend: lemmas *)

Lemma after_fetch_effects_indep (st st' : ui) (o : fetch_outcome) :
  snd (after_fetch st o) = snd (after_fetch st' o).
Proof.
  destruct o as [m | s b]; simpl; [reflexivity |].
  destruct (negb (res_ok s)); [reflexivity |].
  destruct b; reflexivity.
Qed.

Lemma after_fetch_no_fetch (st : ui) (o : fetch_outcome) :
  fetches (snd (after_fetch st o)) = [].
Proof.
  destruct o as [m | s b]; simpl; [reflexivity |].
  destruct (negb (res_ok s)); [reflexivity |].
  destruct b; reflexivity.
Qed.

Lemma after_fetch_rel (st st' : ui) (o : fetch_outcome) :
  ui_rel st st' -> ui_rel (fst (after_fetch st o)) (fst (after_fetch st' o)).
Proof.
  intros (H1 & H2 & H3 & H4 & H5).
  destruct o as [m | s b]; simpl;
    [ | destruct (negb (res_ok s)); [| destruct b]];
    repeat split; simpl; congruence.
Qed.

Lemma after_fetch_mode (st : ui) (o : fetch_outcome) :
  mode (fst (after_fetch st o)) = mode st.
Proof.
  destruct o as [m | s b]; simpl; [reflexivity |].
  destruct (negb (res_ok s)); [reflexivity |].
  destruct b; reflexivity.
Qed.

Lemma after_fetch_labels (st : ui) (o : fetch_outcome) (a : track_args) :
  In (ETrack a) (snd (after_fetch st o)) -> track_ok (outcome_labels o) a.
Proof.
  unfold track_ok.
  destruct o as [m | s b]; simpl.
  - intros [H | []]; inversion H; subst; simpl; intuition.
  - destruct (negb (res_ok s)); simpl.
    + intros [H | []]; inversion H; subst; simpl; intuition.
    + destruct b; simpl; intros [H | []]; inversion H; subst; simpl; intuition.
Qed.

Lemma strip_trailing_slash_cons (c : ascii) (r : string) :
  r <> EmptyString -> strip_trailing_slash (String c r) = String c (strip_trailing_slash r).
Proof. destruct r; [congruence | reflexivity]. Qed.

Lemma strip_trailing_slash_app (p : string) :
  strip_trailing_slash (p ++ "/") = p.
Proof.
  induction p as [| c p IH]; [reflexivity |].
  change ((String c p ++ "/")) with (String c (p ++ "/")).
  rewrite strip_trailing_slash_cons, IH; [reflexivity |].
  destruct p; discriminate.
Qed.

Lemma strip_trailing_slash_id (s : string) :
  (forall p, s <> p ++ "/") -> strip_trailing_slash s = s.
Proof.
  induction s as [| c r IH]; intros H; [reflexivity |].
  destruct r as [| c' r'].
  - simpl. destruct (Ascii.eqb c "/"%char) eqn:E; [| reflexivity].
    apply Ascii.eqb_eq in E; subst. exfalso. apply (H ""). reflexivity.
  - rewrite strip_trailing_slash_cons by discriminate.
    rewrite IH; [reflexivity |].
    intros p Hp. apply (H (String c p)). simpl. rewrite Hp. reflexivity.
Qed.

Lemma ui_rel_set_error (e : string) (st st' : ui) :
  ui_rel st st' -> ui_rel (set_error e st) (set_error e st').
Proof. unfold ui_rel; simpl; intuition. Qed.
Lemma ui_rel_set_result (r : option resp_data) (st st' : ui) :
  ui_rel st st' -> ui_rel (set_result r st) (set_result r st').
Proof. unfold ui_rel; simpl; intuition. Qed.
Lemma ui_rel_set_loading (b : bool) (st st' : ui) :
  ui_rel st st' -> ui_rel (set_loading b st) (set_loading b st').
Proof. unfold ui_rel; simpl; intuition. Qed.
Lemma ui_rel_set_mode (m : string) (st st' : ui) :
  ui_rel st st' -> ui_rel (set_mode m st) (set_mode m st').
Proof. unfold ui_rel; simpl; intuition. Qed.
Lemma ui_rel_set_text (s s' : string) (st st' : ui) :
  is_blank s = is_blank s' -> ui_rel st st' -> ui_rel (set_text s st) (set_text s' st').
Proof. unfold ui_rel; simpl; intuition. Qed.

Create HintDb ui_rel.
#[local] Hint Resolve ui_rel_set_error ui_rel_set_result ui_rel_set_loading
  ui_rel_set_mode ui_rel_set_text : ui_rel.

Lemma handleSubmit_rel (base : string) (st st' : ui) (o : fetch_outcome) :
  ui_rel st st' ->
  ui_rel (fst (handleSubmit base st o)) (fst (handleSubmit base st' o)) /\
  map erase_body (snd (handleSubmit base st o)) =
  map erase_body (snd (handleSubmit base st' o)).
Proof.
  intros H. pose proof H as (Hb & Hm & Hl & Hr & He).
  unfold handleSubmit. unfold is_blank in Hb. rewrite Hb.
  destruct (String.eqb (trim (situationText st')) "").
  - simpl. split; [auto with ui_rel | reflexivity].
  - pose proof (after_fetch_rel (set_loading true (set_result None (set_error "" st)))
                  (set_loading true (set_result None (set_error "" st'))) o
                  ltac:(auto with ui_rel)) as Hrel.
    pose proof (after_fetch_effects_indep (set_loading true (set_result None (set_error "" st)))
                  (set_loading true (set_result None (set_error "" st'))) o) as Heff.
    destruct (after_fetch (set_loading true (set_result None (set_error "" st))) o) as [s1 e1].
    destruct (after_fetch (set_loading true (set_result None (set_error "" st'))) o) as [s2 e2].
    simpl in *. subst e2. rewrite Hm. split; [auto with ui_rel | reflexivity].
Qed.

Lemma step_rel (rev : revision) (env : option string) (st st' : ui) (e e' : ui_event) :
  ui_rel st st' -> ev_rel e e' ->
  ui_rel (fst (step rev env st e)) (fst (step rev env st' e')) /\
  map erase_body (snd (step rev env st e)) = map erase_body (snd (step rev env st' e')).
Proof.
  intros H Hev. pose proof H as (Hb & Hm & Hl & Hr & He).
  destruct e as [s | b | o | |], e' as [s' | b' | o' | |]; simpl in Hev;
    try discriminate; try (injection Hev as <-); simpl.
  - split; [auto with ui_rel | reflexivity].
  - rewrite Hl. destruct (loading st'); simpl; split; auto with ui_rel.
  - rewrite Hl. destruct (loading st'); simpl; [split; auto |].
    apply handleSubmit_rel; exact H.
  - rewrite Hl, Hr. destruct (loading st' && _); simpl; [split; auto |].
    destruct rev; simpl; split; try reflexivity;
      repeat apply ui_rel_set_mode; repeat apply ui_rel_set_error;
      repeat apply ui_rel_set_result; apply ui_rel_set_text; auto.
  - destruct rev; simpl; split; auto.
Qed.

Lemma run_rel (rev : revision) (env : option string) (es es' : list ui_event) :
  Forall2 ev_rel es es' -> forall st st', ui_rel st st' ->
  ui_rel (fst (run rev env st es)) (fst (run rev env st' es')) /\
  map erase_body (snd (run rev env st es)) = map erase_body (snd (run rev env st' es')).
Proof.
  induction 1 as [| e e' es es' Hee Hall IH]; intros st st' H; simpl.
  - split; [exact H | reflexivity].
  - pose proof (step_rel rev env st st' e e' H Hee) as [H1 Heff1].
    destruct (step rev env st e) as [s1 f1], (step rev env st' e') as [s1' f1'].
    simpl in *.
    specialize (IH s1 s1' H1) as [H2 Heff2].
    destruct (run rev env s1 es) as [s2 f2], (run rev env s1' es') as [s2' f2'].
    simpl in *. split; [exact H2 |].
    rewrite !map_app, Heff1, Heff2. reflexivity.
Qed.

Lemma track_ok_incl (L L' : list jsval) (a : track_args) :
  incl L L' -> track_ok L a -> track_ok L' a.
Proof. unfold track_ok; intuition. Qed.

Lemma handleSubmit_labels (base : string) (st : ui) (o : fetch_outcome) :
  mode_ok st ->
  mode_ok (fst (handleSubmit base st o)) /\
  (forall a, In (ETrack a) (snd (handleSubmit base st o)) -> track_ok (outcome_labels o) a).
Proof.
  intros Hm. unfold handleSubmit.
  destruct (String.eqb (trim (situationText st)) "").
  - simpl. split; [exact Hm | intros a []].
  - pose proof (after_fetch_mode (set_loading true (set_result None (set_error "" st))) o) as HM.
    pose proof (after_fetch_labels (set_loading true (set_result None (set_error "" st))) o) as HL.
    destruct (after_fetch (set_loading true (set_result None (set_error "" st))) o) as [s1 e1].
    simpl in *. split; [unfold mode_ok; simpl; rewrite HM; exact Hm |].
    intros a [Ha | [Ha | Ha]]; [| discriminate | exact (HL a Ha)].
    injection Ha as <-. unfold track_ok; simpl.
    destruct Hm as [-> | ->]; simpl; intuition.
Qed.

Lemma step_labels (rev : revision) (env : option string) (st : ui) (e : ui_event) :
  mode_ok st ->
  mode_ok (fst (step rev env st e)) /\
  (forall a, In (ETrack a) (snd (step rev env st e)) -> track_ok (event_labels e) a).
Proof.
  intros Hm. destruct e as [s | b | o | |]; simpl.
  - split; [exact Hm | intros a []].
  - destruct (loading st); simpl; [split; [exact Hm | intros a []] |].
    split; [destruct b; unfold mode_ok; simpl; auto | intros a []].
  - destruct (loading st); [simpl; split; [exact Hm | intros a []] |].
    apply handleSubmit_labels; exact Hm.
  - destruct (loading st && _); simpl; [split; [exact Hm | intros a []] |].
    destruct rev; simpl; (split; [unfold mode_ok; simpl; auto |]);
      intros a [Ha | []]; injection Ha as <-; unfold track_ok; simpl; intuition.
  - destruct rev; simpl; [split; [exact Hm | intros a []] |].
    split; [exact Hm |].
    intros a [Ha | [Ha | []]]; [| discriminate].
    injection Ha as <-; unfold track_ok; simpl; intuition.
Qed.

Lemma run_labels (rev : revision) (env : option string) (es : list ui_event) :
  forall st, mode_ok st ->
  forall a, In (ETrack a) (snd (run rev env st es)) -> track_ok (flat_map event_labels es) a.
Proof.
  induction es as [| e es IH]; intros st Hm a Ha; simpl in *; [contradiction |].
  pose proof (step_labels rev env st e Hm) as [Hm1 HL1].
  destruct (step rev env st e) as [s1 f1]. simpl in *.
  specialize (IH s1 Hm1).
  destruct (run rev env s1 es) as [s2 f2]. simpl in *.
  apply in_app_or in Ha as [Ha | Ha].
  - eapply track_ok_incl; [| exact (HL1 a Ha)]. intros x Hx; apply in_or_app; auto.
  - eapply track_ok_incl; [| exact (IH a Ha)]. intros x Hx; apply in_or_app; auto.
Qed.

(* ------------------------------------------------------------------ *)
(** ** Frontend: claims *)

(** C4: a submission whose text does not trim to empty issues exactly one
    request: a POST whose JSON body is [{situationText: trimmed}], to
    [API_BASE + '/api/help'] in mode 'normal' and to
    [API_BASE + '/api/help/deep'] in mode 'deep'; in both revisions. *)
Theorem handleSubmit_one_post (rev : revision) (env : option string) (st : ui)
    (o : fetch_outcome) :
  trim (situationText st) <> "" ->
  exists r, fetches (snd (handleSubmit (API_BASE rev env) st o)) = [r] /\
    req_method r = "POST" /\
    req_headers r = [("Content-Type", "application/json")] /\
    req_body r = [("situationText", trim (situationText st))] /\
    (mode st = "normal" -> req_url r = API_BASE rev env ++ "/api/help") /\
    (mode st = "deep" -> req_url r = API_BASE rev env ++ "/api/help/deep").
Proof.
  intros Hne. unfold handleSubmit.
  destruct (String.eqb (trim (situationText st)) "") eqn:E.
  { apply String.eqb_eq in E. contradiction. }
  pose proof (after_fetch_no_fetch (set_loading true (set_result None (set_error "" st))) o) as HF.
  destruct (after_fetch (set_loading true (set_result None (set_error "" st))) o) as [s1 e1].
  simpl in *. eexists. split; [rewrite HF; reflexivity |].
  simpl. repeat split; intros Hmode; rewrite Hmode; reflexivity.
Qed.

Lemma handleSubmit_one_post_witness :
  trim (situationText (set_mode "deep" (set_text " flood in basement " init_ui))) <> "" /\
  exists r, fetches (snd (handleSubmit (API_BASE Rev2 None)
                            (set_mode "deep" (set_text " flood in basement " init_ui))
                            (FetchReject "Failed to fetch"))) = [r] /\
    req_method r = "POST" /\
    req_headers r = [("Content-Type", "application/json")] /\
    req_body r = [("situationText", "flood in basement")] /\
    ("deep" = "normal" -> req_url r = API_BASE Rev2 None ++ "/api/help") /\
    ("deep" = "deep" -> req_url r = API_BASE Rev2 None ++ "/api/help/deep").
Proof.
  split; [vm_compute; discriminate |].
  apply (handleSubmit_one_post Rev2 None
           (set_mode "deep" (set_text " flood in basement " init_ui))
           (FetchReject "Failed to fetch")).
  vm_compute; discriminate.
Defined.

(** C5: along any run of either revision of the page, every [trackEvent]
    call has an action and category from the fixed strings and a label that
    is a fixed string, the mode, or derived from a response's hazard or an
    error message of the network outcomes (never from typed text); and two
    runs that differ only in the text typed (blank in one exactly when blank
    in the other) produce the same effects once request bodies are erased:
    the situation text leaves the page only in fetch bodies. *)
Theorem situation_text_only_in_fetch_body (rev : revision) (env : option string)
    (es es' : list ui_event) :
  (forall a, In (ETrack a) (snd (app_run rev env es)) ->
             track_ok (flat_map event_labels es) a) /\
  (Forall2 ev_rel es es' ->
   map erase_body (snd (app_run rev env es)) =
   map erase_body (snd (app_run rev env es'))).
Proof.
  unfold app_run. split.
  - pose proof (run_labels rev env es init_ui (or_introl eq_refl)) as HL.
    destruct (run rev env init_ui es) as [s f]. simpl.
    intros a [Ha | Ha]; [discriminate | exact (HL a Ha)].
  - intros Hall.
    assert (H0 : ui_rel init_ui init_ui) by (repeat split).
    pose proof (run_rel rev env es es' Hall init_ui init_ui H0) as [_ Heff].
    destruct (run rev env init_ui es) as [s f], (run rev env init_ui es') as [s' f'].
    simpl in *. rewrite Heff. reflexivity.
Qed.

Lemma situation_text_only_in_fetch_body_witness :
  map erase_body (snd (app_run Rev2 None
    [UType "my basement is flooding"; USubmit (FetchResolve 500 JsonNull); UReset])) =
  map erase_body (snd (app_run Rev2 None
    [UType "gas smell"; USubmit (FetchResolve 500 JsonNull); UReset])).
Proof.
  apply (proj2 (situation_text_only_in_fetch_body Rev2 None
    [UType "my basement is flooding"; USubmit (FetchResolve 500 JsonNull); UReset]
    [UType "gas smell"; USubmit (FetchResolve 500 JsonNull); UReset])).
  repeat constructor.
Defined.

(** C7 (counterexample): in the second revision a result with guides,
    rendered while the form's mode is 'normal', shows no Guides pill. *)
Lemma guides_pill_mode_normal_hidden :
  let st := set_result (Some {| hazard := JStr "flood";
                                guidesUsed := Some ["flood_preparedness"; "fema_are_you_ready"];
                                rmode := JStr "normal" |}) init_ui in
  guides_pill Rev2 st = None /\ mode st = "normal".
Proof. split; reflexivity. Qed.

(** C7 (amended): for a result whose [guidesUsed] is a non-empty array, the
    first revision always shows the pill "Guides: k1, k2, ..." with the keys
    joined by ', ' in the order of [guidesUsed]; the second revision shows
    that same pill exactly when the current mode is 'deep', and no pill
    otherwise. *)
Theorem guides_pill_order (rev : revision) (st : ui) (d : resp_data) (gs : list string) :
  result st = Some d -> guidesUsed d = Some gs -> gs <> [] ->
  guides_pill rev st =
    if match rev with Rev1 => true | Rev2 => String.eqb (mode st) "deep" end
    then Some ("Guides: " ++ String.concat ", " gs) else None.
Proof.
  intros Hr Hg Hne. unfold guides_pill. rewrite Hr, Hg.
  destruct gs as [| g gs']; [contradiction | reflexivity].
Qed.

Lemma guides_pill_order_witness :
  guides_pill Rev1 (set_result (Some {| hazard := JStr "flood";
                                guidesUsed := Some ["flood_preparedness"; "fema_are_you_ready"];
                                rmode := JStr "normal" |}) init_ui)
  = Some "Guides: flood_preparedness, fema_are_you_ready".
Proof.
  rewrite (guides_pill_order Rev1 _
             {| hazard := JStr "flood";
                guidesUsed := Some ["flood_preparedness"; "fema_are_you_ready"];
                rmode := JStr "normal" |}
             ["flood_preparedness"; "fema_are_you_ready"]);
    [reflexivity | reflexivity | reflexivity | discriminate].
Defined.

(** C8: a submission (possible only while not loading) whose text trims to
    the empty string issues no request and no analytics event, sets the
    error to 'Please describe your situation.', leaves [result] null and
    [loading] false; in both revisions. *)
Theorem blank_submit_no_effects (rev : revision) (env : option string) (st : ui)
    (o : fetch_outcome) :
  loading st = false -> trim (situationText st) = "" ->
  snd (step rev env st (USubmit o)) = [] /\
  error (fst (step rev env st (USubmit o))) = "Please describe your situation." /\
  result (fst (step rev env st (USubmit o))) = None /\
  loading (fst (step rev env st (USubmit o))) = false.
Proof.
  intros Hl Ht. simpl. rewrite Hl. unfold handleSubmit. rewrite Ht. simpl.
  repeat split; exact Hl.
Qed.

Lemma blank_submit_no_effects_witness :
  snd (step Rev1 None (set_text "   " init_ui) (USubmit (FetchReject ""))) = [] /\
  error (fst (step Rev1 None (set_text "   " init_ui) (USubmit (FetchReject ""))))
    = "Please describe your situation." /\
  result (fst (step Rev1 None (set_text "   " init_ui) (USubmit (FetchReject "")))) = None /\
  loading (fst (step Rev1 None (set_text "   " init_ui) (USubmit (FetchReject "")))) = false.
Proof. apply blank_submit_no_effects; reflexivity. Defined.

(** C9 (counterexample): [trackEvent(null)] throws while destructuring its
    parameter, even when there is no window. *)
Lemma trackEvent_null_throws :
  trackEvent_js None ArgNull =
    Throws "Cannot destructure property 'action' of 'null' as it is null.".
Proof. reflexivity. Qed.

(** C9 (amended): called with an object argument (as at every call site of
    App.js), [trackEvent] returns without calling gtag when there is no
    window or [window.gtag] is falsy, and otherwise, when gtag is a
    function, issues exactly one [gtag('event', action, ...)] call
    forwarding category, label and value; [trackPageView] behaves the same
    way for any path, with [page_view] and [page_path].  Both throw when
    [window.gtag] is truthy but not a function, and [trackEvent] called with
    no argument, [undefined] or [null] throws in every window. *)
Theorem ga4_helpers_guarded (w : raw_window) (a : track_args) (path : jsval) :
  match w with
  | Some GFunction =>
      trackEvent_js w (ArgObject a) =
        Returns [ {| g_command := "event"; g_name := action a;
                     g_params := [("event_category", category a); ("event_label", label a);
                                  ("value", value a)] |} ] /\
      trackPageView_js w path =
        Returns [ {| g_command := "event"; g_name := JStr "page_view";
                     g_params := [("page_path", path)] |} ]
  | Some GNonFunction =>
      (exists m, trackEvent_js w (ArgObject a) = Throws m) /\
      (exists m, trackPageView_js w path = Throws m)
  | _ => trackEvent_js w (ArgObject a) = Returns [] /\ trackPageView_js w path = Returns []
  end /\
  (exists m, trackEvent_js w ArgUndefined = Throws m) /\
  (exists m, trackEvent_js w ArgNull = Throws m).
Proof.
  split; [| split; eexists; reflexivity].
  destruct w as [[| |] |]; split; try reflexivity; eexists; reflexivity.
Qed.

(** C10: with REACT_APP_API_URL unset both revisions build the same URLs,
    http://127.0.0.1:5000/api/help and http://127.0.0.1:5000/api/help/deep;
    for a configured non-empty base URL the second revision removes exactly
    one trailing '/' (when there is one) and leaves it unchanged otherwise. *)
Theorem api_base_revisions (s : string) :
  s <> "" ->
  (API_BASE Rev1 None ++ "/api/help" = API_BASE Rev2 None ++ "/api/help" /\
   API_BASE Rev1 None ++ "/api/help/deep" = API_BASE Rev2 None ++ "/api/help/deep" /\
   API_BASE Rev2 None ++ "/api/help" = "http://127.0.0.1:5000/api/help" /\
   API_BASE Rev2 None ++ "/api/help/deep" = "http://127.0.0.1:5000/api/help/deep") /\
  (forall p, s = p ++ "/" -> API_BASE Rev2 (Some s) = p) /\
  ((forall p, s <> p ++ "/") -> API_BASE Rev2 (Some s) = s).
Proof.
  intros Hne.
  assert (Hb : API_BASE Rev2 (Some s) = strip_trailing_slash s).
  { simpl. unfold API_BASE_v2, js_or. simpl.
    destruct (String.eqb s "") eqn:E; [apply String.eqb_eq in E; contradiction |].
    reflexivity. }
  split; [repeat split |]. split.
  - intros p ->. rewrite Hb. apply strip_trailing_slash_app.
  - intros Hp. rewrite Hb. apply strip_trailing_slash_id, Hp.
Qed.

Lemma api_base_revisions_witness :
  API_BASE Rev2 (Some "https://emergency-ai-backend.onrender.com//")
  = "https://emergency-ai-backend.onrender.com/".
Proof.
  exact (proj1 (proj2 (api_base_revisions "https://emergency-ai-backend.onrender.com//"
                          ltac:(discriminate)))
           "https://emergency-ai-backend.onrender.com/" eq_refl).
Defined.

(* ------------------------------------------------------------------ *)
(** ** Backend pipeline: lemmas and claims *)

Module BackendFacts.
Import Backend.

Definition is_classify (c : ext_call) : bool :=
  match c with CallClassify _ => true | _ => false end.

(** How many times the AI Classifier is called. *)
Definition count_classify (calls : list ext_call) : nat :=
  length (filter is_classify calls).

(** The replies that the validation of 4.3 rejects. *)
Definition invalid_reply (cat : Catalog) (r : ai_reply) : Prop :=
  match r with
  | AILabel s => s = "" \/ ~ In s (ai_taxonomy cat)
  | _ => True
  end.

(** Hazard and guide keys of a response, [None] for a client error. *)
Definition resp_key (r : response) : option (string * list string) :=
  match r with
  | Ok g => Some (hazard g, guidesUsed g)
  | BadRequest _ => None
  end.

Lemma count_classify_app (l1 l2 : list ext_call) :
  count_classify (l1 ++ l2) = count_classify l1 + count_classify l2.
Proof. unfold count_classify. rewrite filter_app, length_app. reflexivity. Qed.

Lemma short_form_calls (ext : External) (text h : string) :
  snd (short_form ext text h) = [CallShort text h].
Proof. reflexivity. Qed.

Lemma short_form_nonempty (ext : External) (text h : string) :
  fst (short_form ext text h) <> "".
Proof.
  unfold short_form; simpl.
  destruct (reason_short ext text h) as [g |]; [| discriminate].
  destruct (String.eqb g "") eqn:E; [discriminate |].
  intros ->. discriminate.
Qed.

Lemma synthesize_no_classify (ext : External) (cat : Catalog) (now : Z)
    (m : req_mode) (text h : string) (gs : list string) :
  count_classify (snd (synthesize ext cat now m text h gs)) = 0.
Proof.
  destruct m, gs as [| k gs]; try reflexivity.
  unfold synthesize, doc_informed.
  destruct (usable_handles cat now (k :: gs)) as [| hd tl]; [reflexivity |].
  simpl. destruct (reason_doc ext text h (hd :: tl)) as [g |]; simpl;
    [destruct (String.eqb g "")|]; reflexivity.
Qed.

Lemma synthesize_nonempty (ext : External) (cat : Catalog) (now : Z)
    (m : req_mode) (text h : string) (gs : list string) :
  fst (synthesize ext cat now m text h gs) <> "".
Proof.
  destruct m, gs as [| k gs]; try apply short_form_nonempty.
  unfold synthesize, doc_informed.
  destruct (usable_handles cat now (k :: gs)) as [| hd tl]; [apply short_form_nonempty |].
  simpl. destruct (reason_doc ext text h (hd :: tl)) as [g |]; simpl;
    [destruct (String.eqb g "") eqn:E |]; try apply short_form_nonempty.
  simpl. intros ->. discriminate.
Qed.

(** Fallbacks (a), (b) and (c) of 4.5 all land on short-form. *)
Lemma synthesize_deep_fallback (ext : External) (cat : Catalog) (now : Z)
    (text h : string) (gs : list string) :
  usable_handles cat now gs = [] \/ reason_doc ext text h (usable_handles cat now gs) = None ->
  fst (synthesize ext cat now Deep text h gs) = fst (short_form ext text h).
Proof.
  intros Hu. destruct gs as [| k gs]; [reflexivity |].
  unfold synthesize, doc_informed.
  destruct (usable_handles cat now (k :: gs)) as [| hd tl]; [reflexivity |].
  destruct Hu as [Hu | Hu]; [discriminate |].
  simpl. rewrite Hu. reflexivity.
Qed.

Lemma validate_invalid (cat : Catalog) (r : ai_reply) :
  invalid_reply cat r -> validate_label cat r = UNKNOWN_GENERAL.
Proof.
  destruct r as [s | | |]; simpl; try reflexivity.
  intros Hs. destruct (String.eqb s "") eqn:E; [reflexivity |].
  destruct Hs as [Hs | Hs]; [subst; discriminate |].
  destruct (existsb (String.eqb s) (ai_taxonomy cat)) eqn:Ex; [| reflexivity].
  apply existsb_exists in Ex as (x & Hx & Hxs).
  apply String.eqb_eq in Hxs; subst. contradiction.
Qed.

Lemma first_rule_app (pre post : list (string * list string)) (h : string)
    (pats : list string) (text : string) :
  (forall r, In r pre -> existsb (matches_pattern text) (snd r) = false) ->
  existsb (matches_pattern text) pats = true ->
  first_rule (pre ++ (h, pats) :: post) text = Some h.
Proof.
  induction pre as [| [h' pats'] pre IH]; intros Hpre Hm; simpl.
  - rewrite Hm. reflexivity.
  - pose proof (Hpre (h', pats') (or_introl eq_refl)) as H0. simpl in H0.
    rewrite H0.
    apply IH; [intros r Hr; apply Hpre; right; exact Hr | exact Hm].
Qed.

Lemma process_nonmedical (ext : External) (cat : Catalog) (now : Z) (m : req_mode)
    (t h : string) (src : source) (l1 : list ext_call) (g : string) (l2 : list ext_call) :
  medical_match cat t = false ->
  classify ext cat t = ((h, src), l1) ->
  synthesize ext cat now m t h (resolve_guides cat h) = (g, l2) ->
  process ext cat now m t =
    ({| hazard := h; hazardSource := src; guidesUsed := resolve_guides cat h;
        canDeepDive := match resolve_guides cat h with [] => false | _ => true end;
        guidance := g; mode := m |}, (l1 ++ (l2 ++ []))%list).
Proof.
  intros Hm Hc Hs. unfold process. rewrite Hm. unfold bind at 1. rewrite Hc.
  cbv beta iota zeta. unfold bind. rewrite Hs. reflexivity.
Qed.

Lemma classify_shape (ext : External) (cat : Catalog) (t : string) :
  classify ext cat t =
    match classify_rules cat t with
    | Some h => ((h, Rules), [])
    | None => ((validate_label cat (ai_classify ext t (ai_taxonomy cat)), AI),
               [CallClassify t])
    end.
Proof.
  unfold classify. destruct (classify_rules cat t); reflexivity.
Qed.

Lemma handle_help_ok (ext : External) (cat : Catalog) (now : Z) (t : string) :
  t <> "" ->
  handle_help ext cat now (Some t) =
    (Ok (fst (process ext cat now Normal t)), snd (process ext cat now Normal t)).
Proof.
  intros Ht. unfold handle_help.
  destruct (String.eqb t "") eqn:E; [apply String.eqb_eq in E; contradiction |].
  unfold bind. destruct (process ext cat now Normal t) as [r l].
  simpl. rewrite app_nil_r. reflexivity.
Qed.

Lemma handle_deep_ok (ext : External) (cat : Catalog) (now : Z) (t : string) :
  handle_deep ext cat now (Some t) =
    (Ok (fst (process ext cat now Deep t)), snd (process ext cat now Deep t)).
Proof.
  unfold handle_deep, bind. destruct (process ext cat now Deep t) as [r l].
  simpl. rewrite app_nil_r. reflexivity.
Qed.

(** C1: for a text matching a medical keyword the pipeline stops at the
    short-circuit: hazard medical_emergency, source rules, no guides,
    canDeepDive false, guidance telling the user to call emergency services,
    and no external call at all (in either mode). *)
Theorem medical_short_circuit (ext : External) (cat : Catalog) (now : Z)
    (m : req_mode) (text : string) :
  medical_match cat text = true ->
  hazard (fst (process ext cat now m text)) = MEDICAL_EMERGENCY /\
  hazardSource (fst (process ext cat now m text)) = Rules /\
  guidesUsed (fst (process ext cat now m text)) = [] /\
  canDeepDive (fst (process ext cat now m text)) = false /\
  guidance (fst (process ext cat now m text)) = MEDICAL_GUIDANCE /\
  matches_pattern (guidance (fst (process ext cat now m text)))
                  "call emergency services" = true /\
  snd (process ext cat now m text) = [].
Proof.
  intros H. unfold process. rewrite H. simpl.
  repeat split.
Qed.

Lemma medical_short_circuit_witness :
  hazard (fst (process demo_external demo_catalog 0 Deep "Someone is UNCONSCIOUS here"))
    = MEDICAL_EMERGENCY /\
  snd (process demo_external demo_catalog 0 Deep "Someone is UNCONSCIOUS here") = [].
Proof.
  pose proof (medical_short_circuit demo_external demo_catalog 0 Deep
                "Someone is UNCONSCIOUS here" ltac:(vm_compute; reflexivity)) as H.
  split; [exact (proj1 H) | exact (proj2 (proj2 (proj2 (proj2 (proj2 (proj2 H))))))].
Defined.

(** C2 (counterexample): a text matching no rule of the Rule Classifier
    but a medical keyword never reaches the AI Classifier. *)
Lemma ai_not_called_medical_text :
  classify_rules demo_catalog "my father has chest pain" = None /\
  count_classify (snd (handle_help demo_external demo_catalog 0
                         (Some "my father has chest pain"))) = 0.
Proof. vm_compute. split; reflexivity. Qed.

(** C2 (amended): for a text matching no medical keyword and no rule, the
    AI Classifier is called exactly once, its label is taken only when it is
    a non-empty member of the taxonomy (without medical_emergency), and an
    empty, out-of-taxonomy, malformed, timed-out or failed reply gives
    unknown_general with source ai; when a medical keyword or a rule matches
    it is not called; and a request with a non-empty text succeeds on both
    endpoints. *)
Theorem ai_classifier_fallback (ext : External) (cat : Catalog) (now : Z)
    (m : req_mode) (t : string) :
  count_classify (snd (process ext cat now m t)) =
    (if medical_match cat t then 0
     else match classify_rules cat t with Some _ => 0 | None => 1 end) /\
  (medical_match cat t = false -> classify_rules cat t = None ->
     hazardSource (fst (process ext cat now m t)) = AI /\
     hazard (fst (process ext cat now m t)) =
       validate_label cat (ai_classify ext t (ai_taxonomy cat)) /\
     (invalid_reply cat (ai_classify ext t (ai_taxonomy cat)) ->
        hazard (fst (process ext cat now m t)) = UNKNOWN_GENERAL)) /\
  (t <> "" -> exists r, fst (handle_help ext cat now (Some t)) = Ok r) /\
  (exists r, fst (handle_deep ext cat now (Some t)) = Ok r).
Proof.
  split; [| split; [| split]].
  - destruct (medical_match cat t) eqn:Hm.
    + unfold process. rewrite Hm. reflexivity.
    + destruct (classify ext cat t) as [[h src] l1] eqn:Hc.
      destruct (synthesize ext cat now m t h (resolve_guides cat h)) as [g l2] eqn:Hs.
      rewrite (process_nonmedical ext cat now m t h src l1 g l2 Hm Hc Hs). simpl.
      rewrite !count_classify_app.
      pose proof (synthesize_no_classify ext cat now m t h (resolve_guides cat h)) as H0.
      rewrite Hs in H0. simpl in H0. rewrite H0.
      rewrite classify_shape in Hc.
      destruct (classify_rules cat t); injection Hc as _ _ <-; reflexivity.
  - intros Hm Hr.
    destruct (classify ext cat t) as [[h src] l1] eqn:Hc.
    destruct (synthesize ext cat now m t h (resolve_guides cat h)) as [g l2] eqn:Hs.
    rewrite (process_nonmedical ext cat now m t h src l1 g l2 Hm Hc Hs). simpl.
    rewrite classify_shape, Hr in Hc. injection Hc as <- <- _.
    split; [reflexivity | split; [reflexivity |]].
    apply validate_invalid.
  - intros Ht. rewrite handle_help_ok by exact Ht. eexists; reflexivity.
  - rewrite handle_deep_ok. eexists; reflexivity.
Qed.

Lemma ai_classifier_fallback_witness :
  count_classify (snd (process demo_external demo_catalog 0 Normal "a strange noise")) = 1 /\
  hazard (fst (process demo_external demo_catalog 0 Normal "a strange noise"))
    = UNKNOWN_GENERAL.
Proof.
  pose proof (ai_classifier_fallback demo_external demo_catalog 0 Normal "a strange noise")
    as (H1 & H2 & _).
  split; [rewrite H1; vm_compute; reflexivity |].
  apply (proj2 (proj2 (H2 ltac:(vm_compute; reflexivity) ltac:(vm_compute; reflexivity)))).
  simpl. right. vm_compute. intuition discriminate.
Defined.

(** C3: /api/help/deep with a present situationText always answers with a
    GuidanceResult in mode deep and non-empty guidance; when no guide
    handle is usable (no guide, handles missing or expired) or the
    document-informed call fails, the guidance is the short-form one. *)
Theorem deep_mode_always_guidance (ext : External) (cat : Catalog) (now : Z)
    (t : string) :
  exists r, fst (handle_deep ext cat now (Some t)) = Ok r /\
    mode r = Deep /\ guidance r <> "" /\
    (medical_match cat t = false ->
     usable_handles cat now (guidesUsed r) = [] \/
     reason_doc ext t (hazard r) (usable_handles cat now (guidesUsed r)) = None ->
     guidance r = fst (short_form ext t (hazard r))).
Proof.
  rewrite handle_deep_ok. exists (fst (process ext cat now Deep t)).
  split; [reflexivity |].
  destruct (medical_match cat t) eqn:Hm.
  - unfold process. rewrite Hm. simpl.
    split; [reflexivity | split; [discriminate | discriminate]].
  - destruct (classify ext cat t) as [[h src] l1] eqn:Hc.
    destruct (synthesize ext cat now Deep t h (resolve_guides cat h)) as [g l2] eqn:Hs.
    rewrite (process_nonmedical ext cat now Deep t h src l1 g l2 Hm Hc Hs). simpl.
    pose proof (synthesize_nonempty ext cat now Deep t h (resolve_guides cat h)) as Hne.
    pose proof (synthesize_deep_fallback ext cat now t h (resolve_guides cat h)) as Hfb.
    rewrite Hs in Hne, Hfb. simpl in Hne, Hfb.
    split; [reflexivity | split; [exact Hne |]].
    intros _ Hu. apply Hfb, Hu.
Qed.

Lemma deep_mode_always_guidance_witness :
  exists r, fst (handle_deep demo_external demo_catalog 50 (Some "heavy smoke")) = Ok r /\
    mode r = Deep /\ guidance r = "Stay calm.".
Proof.
  destruct (deep_mode_always_guidance demo_external demo_catalog 50 "heavy smoke")
    as (r & Hr & Hm & _ & Hfb).
  exists r. split; [exact Hr | split; [exact Hm |]].
  vm_compute in Hr. injection Hr as <-.
  rewrite Hfb; [reflexivity | vm_compute; reflexivity | left; vm_compute; reflexivity].
Defined.

(** C6: /api/help is a function of the text and the catalog snapshot once
    the classification service's answers are fixed: two runs, at any two
    times (handle expiries are compared with the time), agree on the
    hazard and guidesUsed, whatever the synthesis services answer; and the
    rule classifier returns the hazard of the first matching rule. *)
Theorem help_idempotent (ext1 ext2 : External) (cat : Catalog) (now1 now2 : Z)
    (body : option string) :
  ai_classify ext1 = ai_classify ext2 ->
  resp_key (fst (handle_help ext1 cat now1 body)) =
  resp_key (fst (handle_help ext2 cat now2 body)) /\
  (forall pre h pats post text,
     rules cat = (pre ++ (h, pats) :: post)%list ->
     (forall r, In r pre -> existsb (matches_pattern text) (snd r) = false) ->
     existsb (matches_pattern text) pats = true ->
     classify_rules cat text = Some h).
Proof.
  intros Hai. split.
  - destruct body as [t |]; [| reflexivity].
    destruct (String.eqb t "") eqn:E.
    { unfold handle_help. rewrite E. reflexivity. }
    assert (Ht : t <> "") by (intros ->; discriminate).
    rewrite !handle_help_ok by exact Ht. simpl.
    destruct (medical_match cat t) eqn:Hm.
    { unfold process. rewrite Hm. reflexivity. }
    destruct (classify ext1 cat t) as [[h1 s1] c1] eqn:Hc1.
    destruct (classify ext2 cat t) as [[h2 s2] c2] eqn:Hc2.
    destruct (synthesize ext1 cat now1 Normal t h1 (resolve_guides cat h1)) as [g1 l1] eqn:Hs1.
    destruct (synthesize ext2 cat now2 Normal t h2 (resolve_guides cat h2)) as [g2 l2] eqn:Hs2.
    rewrite (process_nonmedical ext1 cat now1 Normal t h1 s1 c1 g1 l1 Hm Hc1 Hs1).
    rewrite (process_nonmedical ext2 cat now2 Normal t h2 s2 c2 g2 l2 Hm Hc2 Hs2).
    rewrite classify_shape in Hc1, Hc2. rewrite Hai in Hc1.
    rewrite Hc1 in Hc2. injection Hc2 as <- _ _. reflexivity.
  - intros pre h pats post text Hr Hpre Hpat.
    unfold classify_rules. rewrite Hr. apply first_rule_app; assumption.
Qed.

Lemma help_idempotent_witness :
  resp_key (fst (handle_help demo_external demo_catalog 0 (Some "My basement is flooding"))) =
  resp_key (fst (handle_help {| ai_classify := ai_classify demo_external;
                                reason_short := fun _ _ => None;
                                reason_doc := fun _ _ _ => None |}
                             demo_catalog 500 (Some "My basement is flooding"))).
Proof.
  exact (proj1 (help_idempotent demo_external
                  {| ai_classify := ai_classify demo_external;
                     reason_short := fun _ _ => None;
                     reason_doc := fun _ _ _ => None |}
                  demo_catalog 0 500 (Some "My basement is flooding") eq_refl)).
Defined.

End BackendFacts.

(* ------------------------------------------------------------------ *)
(** ** Frontend: further properties of App.js and ga4.js *)

Module FrontendFacts.

(** The [trackEvent] calls among the effects, in order. *)
Definition tracks (effs : list effect) : list track_args :=
  flat_map (fun e => match e with ETrack a => [a] | _ => [] end) effs.

(** What a failed submission leaves: no result, the generic error message,
    not loading, and the two analytics events submit / error. *)
Definition fail_shape (md : string) (p : ui * list effect) (l : jsval) : Prop :=
  result (fst p) = None /\
  error (fst p) = "Something went wrong. Please try again." /\
  loading (fst p) = false /\
  tracks (snd p) = [mk_event "submit_help_request" "help" (JStr md);
                    mk_event "help_request_error" "help" l].





Lemma fetches_app (l1 l2 : list effect) :
  fetches (l1 ++ l2) = (fetches l1 ++ fetches l2)%list.
Proof. unfold fetches. apply flat_map_app. Qed.





Lemma gtag_event_of_spec (a : track_args) :
  trackEvent (Some GtagFunction) a =
    [ {| g_command := "event"; g_name := action a;
         g_params := [("event_category", category a); ("event_label", label a);
                      ("value", value a)] |} ].
Proof. reflexivity. Qed.

(** What reaches [window.gtag] when the effects run in a given window. *)
Definition gtag_calls (w : window_env) (effs : list effect) : list gtag_call :=
  flat_map (fun e => match e with
                     | ETrack a => trackEvent w a
                     | EPageView p => trackPageView w p
                     | _ => []
                     end) effs.

Definition gtag_event_of (a : track_args) : gtag_call :=
  {| g_command := "event"; g_name := action a;
     g_params := [("event_category", category a); ("event_label", label a);
                  ("value", value a)] |}.

Lemma step_no_pageview (rev : revision) (env : option string) (st : ui) (e : ui_event) :
  Forall (fun x => match x with EPageView _ => False | _ => True end) (snd (step rev env st e)).
Proof.
  destruct e as [s | b | o | |]; simpl; repeat constructor.
  - destruct (loading st); repeat constructor.
  - destruct (loading st); [constructor |]. unfold handleSubmit.
    destruct (String.eqb (trim (situationText st)) ""); [constructor |].
    assert (H : forall st', Forall (fun x => match x with EPageView _ => False | _ => True end)
                              (snd (after_fetch st' o))).
    { intros st'. destruct o as [m | s b]; simpl; [repeat constructor |].
      destruct (negb (res_ok s)); [repeat constructor |]. destruct b; repeat constructor. }
    specialize (H (set_loading true (set_result None (set_error "" st)))).
    destruct (after_fetch _ o). simpl in *. repeat constructor; assumption.
  - destruct (loading st && _); [constructor |]. destruct rev; repeat constructor.
  - destruct rev; repeat constructor.
Qed.

Lemma run_no_pageview (rev : revision) (env : option string) (es : list ui_event) :
  forall st,
  Forall (fun x => match x with EPageView _ => False | _ => True end) (snd (run rev env st es)).
Proof.
  induction es as [| e es IH]; intros st; simpl; [constructor |].
  pose proof (step_no_pageview rev env st e) as H1.
  destruct (step rev env st e) as [s1 f1]. specialize (IH s1).
  destruct (run rev env s1 es) as [s2 f2]. simpl in *.
  apply Forall_app; split; assumption.
Qed.

Lemma gtag_calls_no_pageview (effs : list effect) :
  Forall (fun x => match x with EPageView _ => False | _ => True end) effs ->
  gtag_calls (Some GtagFunction) effs = map gtag_event_of (tracks effs).
Proof.
  induction 1 as [| x effs Hx _ IH]; [reflexivity |].
  destruct x; simpl in *; try contradiction; rewrite IH; reflexivity.
Qed.

(** X1: a submission whose request succeeds ([res.ok] and a JSON object)
    shows the response, clears the error, ends not loading, and sends the
    two analytics events submit_help_request (label: the mode) and
    help_request_success (label: the response's hazard, or 'unknown' when
    that is falsy). *)
Theorem submit_success (base : string) (st : ui) (s : Z) (d : resp_data) :
  trim (situationText st) <> "" -> res_ok s = true ->
  result (fst (handleSubmit base st (FetchResolve s (JsonObject d)))) = Some d /\
  error (fst (handleSubmit base st (FetchResolve s (JsonObject d)))) = "" /\
  loading (fst (handleSubmit base st (FetchResolve s (JsonObject d)))) = false /\
  tracks (snd (handleSubmit base st (FetchResolve s (JsonObject d)))) =
    [mk_event "submit_help_request" "help" (JStr (mode st));
     mk_event "help_request_success" "help"
       (if truthy (hazard d) then hazard d else JStr "unknown")].
Proof.
  intros Ht Hok. unfold handleSubmit.
  destruct (String.eqb (trim (situationText st)) "") eqn:E;
    [apply String.eqb_eq in E; contradiction |].
  simpl. rewrite Hok. simpl. repeat split.
Qed.

Lemma submit_success_witness :
  tracks (snd (handleSubmit API_BASE_v1 (set_text "gas smell" init_ui)
                 (FetchResolve 200 (JsonObject {| hazard := JStr ""; guidesUsed := None;
                                                  rmode := JStr "normal" |})))) =
  [mk_event "submit_help_request" "help" (JStr "normal");
   mk_event "help_request_success" "help" (JStr "unknown")].
Proof.
  exact (proj2 (proj2 (proj2 (submit_success API_BASE_v1 (set_text "gas smell" init_ui) 200
           {| hazard := JStr ""; guidesUsed := None; rmode := JStr "normal" |}
           ltac:(discriminate) eq_refl)))).
Defined.

(** X2: every failing submission (network rejection, non-2xx status, body
    that is not JSON, JSON null) shows no result, the message 'Something
    went wrong. Please try again.', ends not loading, and sends
    submit_help_request then help_request_error, labelled with the error
    message ('unknown_error' if it is empty); for a non-2xx status the label
    is 'API error: <status>' and the body is not read. *)
Theorem submit_failures (base : string) (st : ui) :
  trim (situationText st) <> "" ->
  (forall m, fail_shape (mode st) (handleSubmit base st (FetchReject m))
                        (if String.eqb m "" then JStr "unknown_error" else JStr m)) /\
  (forall s b, res_ok s = false ->
     fail_shape (mode st) (handleSubmit base st (FetchResolve s b))
                (JStr ("API error: " ++ Z_to_string s))) /\
  (forall s m, res_ok s = true ->
     fail_shape (mode st) (handleSubmit base st (FetchResolve s (JsonError m)))
                (if String.eqb m "" then JStr "unknown_error" else JStr m)) /\
  (forall s, res_ok s = true ->
     fail_shape (mode st) (handleSubmit base st (FetchResolve s JsonNull))
                (JStr null_read_msg)).
Proof.
  intros Ht. unfold fail_shape, handleSubmit.
  destruct (String.eqb (trim (situationText st)) "") eqn:E;
    [apply String.eqb_eq in E; contradiction |].
  split; [| split; [| split]].
  - intros m. simpl. unfold js_or. simpl.
    destruct (String.eqb m ""); repeat split.
  - intros s b Hok. simpl. rewrite Hok. repeat split.
  - intros s m Hok. simpl. rewrite Hok. simpl. unfold js_or, truthy.
    destruct (String.eqb m ""); repeat split.
  - intros s Hok. simpl. rewrite Hok. repeat split.
Qed.

Lemma submit_failures_witness :
  fail_shape "deep" (handleSubmit API_BASE_v1 (set_mode "deep" (set_text "smoke" init_ui))
                       (FetchResolve 503 (JsonError "Unexpected token <")))
             (JStr "API error: 503").
Proof.
  exact (proj1 (proj2 (submit_failures API_BASE_v1 (set_mode "deep" (set_text "smoke" init_ui))
                         ltac:(discriminate)))
           503%Z (JsonError "Unexpected token <") eq_refl).
Defined.


(** X6: over any session, nothing reaches gtag when there is no window or
    [window.gtag] is falsy; when gtag is installed it receives first the
    page_view event for '/', then one 'event' call per [trackEvent] call,
    in order, forwarding its action, category, label and value. *)
Theorem session_analytics (rev : revision) (env : option string) (es : list ui_event)
    (w : window_env) :
  (w = None \/ w = Some GtagFalsy -> gtag_calls w (snd (app_run rev env es)) = []) /\
  (w = Some GtagFunction ->
   gtag_calls w (snd (app_run rev env es)) =
     {| g_command := "event"; g_name := JStr "page_view";
        g_params := [("page_path", JStr "/")] |}
     :: map gtag_event_of (tracks (snd (app_run rev env es)))).
Proof.
  unfold app_run.
  pose proof (run_no_pageview rev env es init_ui) as H.
  destruct (run rev env init_ui es) as [s f]. simpl. split.
  - intros Hw. clear H.
    destruct Hw as [-> | ->]; simpl;
      (induction f as [| e f IH]; [reflexivity | destruct e; exact IH]).
  - intros ->. simpl. f_equal. apply gtag_calls_no_pageview, H.
Qed.

Lemma session_analytics_witness :
  gtag_calls None (snd (app_run Rev2 None [UType "flood"; USubmit (FetchReject "x"); UDonate]))
  = [].
Proof.
  exact (proj1 (session_analytics Rev2 None [UType "flood"; USubmit (FetchReject "x"); UDonate]
                  None) (or_introl eq_refl)).
Defined.

(** X8: ticking the deep checkbox (while not loading) and then submitting a
    non-blank text sends the one request to '/api/help/deep'; unticking it
    sends it to '/api/help'. *)
Theorem toggle_then_submit (rev : revision) (env : option string) (st : ui)
    (b : bool) (o : fetch_outcome) :
  loading st = false -> trim (situationText st) <> "" ->
  map req_url (fetches (snd (run rev env st [UToggle b; USubmit o]))) =
    [API_BASE rev env ++ (if b then "/api/help/deep" else "/api/help")].
Proof.
  intros Hl Ht. simpl. rewrite Hl. simpl.
  destruct (handleSubmit (API_BASE rev env) (set_mode (if b then "deep" else "normal") st) o)
    as [s1 f1] eqn:Hs.
  pose proof (handleSubmit_one_post rev env (set_mode (if b then "deep" else "normal") st) o Ht)
    as (r & Hr & _ & _ & _ & Hn & Hd).
  rewrite Hs in Hr. simpl in Hr. rewrite Hl. simpl. rewrite app_nil_r, Hr. simpl.
  destruct b; simpl in *; [rewrite Hd | rewrite Hn]; reflexivity.
Qed.

Lemma toggle_then_submit_witness :
  map req_url (fetches (snd (run Rev2 None (set_text "smoke outside" init_ui)
                               [UToggle true; USubmit (FetchReject "")]))) =
    ["http://127.0.0.1:5000/api/help/deep"].
Proof.
  exact (toggle_then_submit Rev2 None (set_text "smoke outside" init_ui) true
           (FetchReject "") eq_refl ltac:(discriminate)).
Defined.
End FrontendFacts.
